(** * RNN decoders of txtgen (txtgen/modules/decoders/rnn_decoders.py)

    A shallow embedding of [BasicRNNDecoder] and [AttentionRNNDecoder]:
    the two output namedtuples, the default hyperparameter dictionaries,
    the constructor of the attention decoder and the
    initialize / step / finalize methods, over an abstract host framework
    (recurrent cells, helpers, the projection layer, the class registry). *)

From stdpp Require Import gmap strings list fin_maps.

Set Warnings "-register-all".
Open Scope string_scope.

(** ** Python exceptions and fallible computations *)

Inductive exn :=
| TypeError
| KeyError (key : string)
| IndexError
| HostError (what : string).

Inductive result (A : Type) :=
| Ok (a : A)
| Raise (e : exn).
Arguments Ok {A} a.
Arguments Raise {A} e.

#[global] Instance result_ret : MRet result := fun A a => Ok a.
#[global] Instance result_bind : MBind result := fun A B f m =>
  match m with
  | Ok a => f a
  | Raise e => Raise e
  end.

Definition is_ok {A} (r : result A) : bool :=
  match r with
  | Ok _ => true
  | Raise _ => false
  end.

(** ** Python values

    Hyperparameter trees are nested dictionaries with string keys.  [PObj]
    stands for an opaque host object (a tensor, a callable); such objects are
    not subscriptable by a string key. *)

Inductive PyVal (Obj : Type) :=
| PNone
| PBool (b : bool)
| PInt (n : Z)
| PStr (s : string)
| PDict (d : gmap string (PyVal Obj))
| PObj (o : Obj).
Arguments PNone {Obj}.
Arguments PBool {Obj} b.
Arguments PInt {Obj} n.
Arguments PStr {Obj} s.
Arguments PDict {Obj} d.
Arguments PObj {Obj} o.

(** [v[k]] for a string key [k]. *)
Definition getitem {Obj} (v : PyVal Obj) (k : string) : result (PyVal Obj) :=
  match v with
  | PDict d =>
      match d !! k with
      | Some x => Ok x
      | None => Raise (KeyError k)
      end
  | _ => Raise TypeError
  end.

(** [v[k] = x] for a string key [k]; the updated container is returned. *)
Definition setitem {Obj} (v : PyVal Obj) (k : string) (x : PyVal Obj)
  : result (PyVal Obj) :=
  match v with
  | PDict d => Ok (PDict (<[k := x]> d))
  | _ => Raise TypeError
  end.

(** [**v] in a call: the value has to be a mapping. *)
Definition as_kwargs {Obj} (v : PyVal Obj) : result (gmap string (PyVal Obj)) :=
  match v with
  | PDict d => Ok d
  | _ => Raise TypeError
  end.

(** Python sequences: a tuple or a list of items. *)
Inductive PySeq (A : Type) :=
| PyTuple (items : list A)
| PyList (items : list A).
Arguments PyTuple {A} items.
Arguments PyList {A} items.

Definition seq_items {A} (s : PySeq A) : list A :=
  match s with
  | PyTuple l => l
  | PyList l => l
  end.

(** [t[i]] on a tuple. *)
Definition tuple_index {A} (t : list A) (i : nat) : result A :=
  match t !! i with
  | Some x => Ok x
  | None => Raise IndexError
  end.

(** ** collections.namedtuple

    Calling a namedtuple class with keyword arguments binds each keyword to
    the field of that name.  A keyword that names no field, or a field left
    without a value, raises [TypeError]. *)

Fixpoint kwarg_lookup {A} (k : string) (kwargs : list (string * A)) : option A :=
  match kwargs with
  | [] => None
  | (k', v) :: rest => if String.eqb k k' then Some v else kwarg_lookup k rest
  end.

Fixpoint bind_fields {A} (fields : list string) (kwargs : list (string * A))
  : result (list A) :=
  match fields with
  | [] => Ok []
  | f :: fs =>
      match kwarg_lookup f kwargs with
      | Some v => vs ← bind_fields fs kwargs; Ok (v :: vs)
      | None => Raise TypeError
      end
  end.

Definition is_field (fields : list string) (k : string) : bool :=
  existsb (String.eqb k) fields.

Definition namedtuple_new {A} (fields : list string) (kwargs : list (string * A))
  : result (list A) :=
  if forallb (fun kv => is_field fields kv.1) kwargs
  then bind_fields fields kwargs
  else Raise TypeError.

Module BasicRNNDecoderOutput.
Record t (A : Type) := mk { rnn_output : A; sample_id : A }.
Arguments mk {A} _ _.
Arguments rnn_output {A} _.
Arguments sample_id {A} _.

Definition _fields : list string := ["rnn_output"; "sample_id"].

Definition of_kwargs {A} (kwargs : list (string * A)) : result (t A) :=
  vs ← namedtuple_new _fields kwargs;
  match vs with
  | [a; b] => Ok (mk a b)
  | _ => Raise TypeError
  end.
End BasicRNNDecoderOutput.

Module AttentionRNNDecoderOutput.
Record t (A : Type) := mk {
  rnn_output : A;
  sample_id : A;
  cell_output : A;
  attention_scores : A;
  attention_context : A
}.
Arguments mk {A} _ _ _ _ _.
Arguments rnn_output {A} _.
Arguments sample_id {A} _.
Arguments cell_output {A} _.
Arguments attention_scores {A} _.
Arguments attention_context {A} _.

Definition _fields : list string :=
  ["rnn_output"; "sample_id"; "cell_output";
   "attention_scores"; "attention_context"].

Definition of_kwargs {A} (kwargs : list (string * A)) : result (t A) :=
  vs ← namedtuple_new _fields kwargs;
  match vs with
  | [a; b; c; d; e] => Ok (mk a b c d e)
  | _ => Raise TypeError
  end.
End AttentionRNNDecoderOutput.

(** Element types of the host framework that the decoders name. *)
Inductive DType := float32 | int32.

(** Entries of [output_size]: a plain Python value or a [TensorShape]. *)
Inductive SizeSpec (Obj : Type) :=
| SizeVal (v : PyVal Obj)
| TensorShape (dims : list Z).
Arguments SizeVal {Obj} v.
Arguments TensorShape {Obj} dims.

(** ** The decoder object and the host framework *)

(** The attributes of [self] that the methods below read or write. *)
Record Decoder (Obj Cell Helper : Type) := mkDecoder {
  _cell : Cell;
  _helper : Helper;
  _initial_state : Obj;
  _vocab_size : PyVal Obj
}.
Arguments mkDecoder {Obj Cell Helper} _ _ _ _.
Arguments _cell {Obj Cell Helper} _.
Arguments _helper {Obj Cell Helper} _.
Arguments _initial_state {Obj Cell Helper} _.
Arguments _vocab_size {Obj Cell Helper} _.

(** [self._cell = c] *)
Definition set_cell {Obj Cell Helper} (self : Decoder Obj Cell Helper) (c : Cell)
  : Decoder Obj Cell Helper :=
  mkDecoder c (_helper self) (_initial_state self) (_vocab_size self).

(** Everything the decoders call but do not define.  [Obj] is the universe of
    run-time values (tensors and structures of tensors).  A cell invocation
    runs over the cell's hidden environment [CellEnv] (random state, call
    history), which it may read and update; the other collaborators are
    functions of their arguments.  [get_cell_state], [get_alignments] and
    [get_attention] read the attributes [cell_state], [alignments] and
    [attention] of an [AttentionWrapperState].  [RNNDecoderBase] and
    [get_instance] live in sibling modules of the toolkit and are taken as
    parameters here. *)
Class Host := {
  Obj : Type;
  Cell : Type;
  Helper : Type;
  CellEnv : Type;
  cell_call : Cell → Obj → Obj → CellEnv → (Obj * Obj) * CellEnv;
  fully_connected : Obj → PyVal Obj → Obj;
  helper_initialize : Helper → list Obj;
  helper_sample : Helper → Obj → Obj → Obj → Obj;
  helper_next_inputs : Helper → Obj → Obj → Obj → Obj → Obj * Obj * Obj;
  get_cell_state : Obj → Obj;
  get_alignments : Obj → Obj;
  get_attention : Obj → Obj;
  RNNDecoderBase_default_hparams : gmap string (PyVal Obj);
  RNNDecoderBase_init :
    option Cell → PyVal Obj → PyVal Obj → PyVal Obj
    → result (Decoder Obj Cell Helper);
  get_instance :
    PyVal Obj → gmap string (PyVal Obj) → list string → result Obj;
  AttentionWrapper :
    Cell → Obj → gmap string (PyVal Obj) → result Cell
}.

(** What [step] returns: (outputs, next_state, next_inputs, finished). *)
Definition StepResult `{Host} (Out : Type) : Type := (Out * Obj * Obj * Obj)%type.

(** ** BasicRNNDecoder *)

Module BasicRNNDecoder.
Section Methods.
Context `{Host}.

Definition __init__ (cell : option Cell)
    (embedding vocab_size hparams : PyVal Obj)
  : result (Decoder Obj Cell Helper) :=
  RNNDecoderBase_init cell embedding vocab_size hparams.

Definition default_hparams : gmap string (PyVal Obj) :=
  let hparams := RNNDecoderBase_default_hparams in
  let hparams := <["name" := PStr "basic_rnn_decoder"]> hparams in
  hparams.

Definition initialize (self : Decoder Obj Cell Helper) (name : option string)
  : PySeq Obj :=
  PyTuple (helper_initialize (_helper self) ++ [_initial_state self]).

Definition step (self : Decoder Obj Cell Helper)
    (time inputs state : Obj) (name : option string) (env : CellEnv)
  : StepResult (BasicRNNDecoderOutput.t Obj) * CellEnv :=
  let '((cell_outputs, cell_state), env) :=
    cell_call (_cell self) inputs state env in
  let logits := fully_connected cell_outputs (_vocab_size self) in
  let sample_ids := helper_sample (_helper self) time logits cell_state in
  let '(finished, next_inputs, next_state) :=
    helper_next_inputs (_helper self) time logits cell_state sample_ids in
  let outputs := BasicRNNDecoderOutput.mk logits sample_ids in
  ((outputs, next_state, next_inputs, finished), env).

Definition finalize {O S L : Type} (outputs : O) (final_state : S)
    (sequence_lengths : L) : O * S :=
  (outputs, final_state).

Definition output_size (self : Decoder Obj Cell Helper)
  : result (BasicRNNDecoderOutput.t (SizeSpec Obj)) :=
  BasicRNNDecoderOutput.of_kwargs
    [("rnn_output", SizeVal (_vocab_size self));
     ("sample_id", TensorShape [])].

Definition output_dtype (self : Decoder Obj Cell Helper)
  : result (BasicRNNDecoderOutput.t DType) :=
  BasicRNNDecoderOutput.of_kwargs
    [("rnn_output", float32); ("sample_id", int32)].

End Methods.
End BasicRNNDecoder.

(** ** AttentionRNNDecoder *)

Module AttentionRNNDecoder.
Section Methods.
Context `{Host}.

Definition attention_modules : list string :=
  ["txtgen.custom"; "tensorflow.contrib.seq2seq"].

(** The dictionary reached as [hparams['attention']['params']] is updated in
    place by the constructor; [store_params] is the caller's [hparams] after
    those updates. *)
Definition store_params (hparams attention_kwargs : PyVal Obj) : PyVal Obj :=
  match hparams with
  | PDict h =>
      match h !! "attention" with
      | Some (PDict a) =>
          PDict (<["attention" := PDict (<["params" := attention_kwargs]> a)]> h)
      | _ => hparams
      end
  | _ => hparams
  end.

(** The constructor.  It returns the constructed decoder together with the
    caller's [hparams] as the constructor leaves it. *)
Definition __init__
    (n_hidden attention_keys attention_values attention_values_length
       reverse_scores_lengths cell_input_fn : PyVal Obj)
    (cell : option Cell) (embedding vocab_size hparams : PyVal Obj)
  : result (Decoder Obj Cell Helper * PyVal Obj) :=
  self ← RNNDecoderBase_init cell embedding vocab_size hparams;
  att_params ← getitem hparams "attention";
  attention_class ← (a ← getitem hparams "attention"; getitem a "class");
  attention_kwargs ← (a ← getitem hparams "attention"; getitem a "params");
  attention_kwargs ← setitem attention_kwargs "num_units" n_hidden;
  attention_kwargs ←
    setitem attention_kwargs "memory_sequence_length" attention_values_length;
  attention_kwargs ← setitem attention_kwargs "memory" attention_keys;
  let hparams := store_params hparams attention_kwargs in
  kwargs ← as_kwargs attention_kwargs;
  attention_mechanism ← get_instance attention_class kwargs attention_modules;
  wrapper_params ←
    (a ← getitem hparams "attention"; getitem a "wrapper_params");
  wrapper_kwargs ← as_kwargs wrapper_params;
  attn_cell ← AttentionWrapper (_cell self) attention_mechanism wrapper_kwargs;
  let self := set_cell self attn_cell in
  Ok (self, hparams).

Definition attention_defaults : PyVal Obj :=
  PDict (<["type" := PStr "LuongAttention"]>
        (<["kwargs" := PDict (<["num_units" := PInt 512]>
                             (<["probability_fn" := PStr "tensorflow.nn.softmax"]>
                              ∅))]>
        (<["attention_layer_size" := PNone]>
        (<["alignment_history" := PBool false]>
        (<["output_attention" := PBool true]> ∅))))).

Definition default_hparams : gmap string (PyVal Obj) :=
  let hparams := RNNDecoderBase_default_hparams in
  let hparams := <["name" := PStr "attention_rnn_decoder"]> hparams in
  let hparams := <["attention" := attention_defaults]> hparams in
  hparams.

Definition initialize (self : Decoder Obj Cell Helper) (name : option string)
  : result (PySeq Obj) :=
  let helper_init := helper_initialize (_helper self) in
  h0 ← tuple_index helper_init 0;
  h1 ← tuple_index helper_init 1;
  Ok (PyList [h0; h1; _initial_state self]).

Definition step (self : Decoder Obj Cell Helper)
    (time inputs state : Obj) (name : option string) (env : CellEnv)
  : StepResult (AttentionRNNDecoderOutput.t Obj) * CellEnv :=
  let '((cell_outputs, cell_state), env) :=
    cell_call (_cell self) inputs state env in
  let '((wrapper_outputs, wrapper_state), env) :=
    cell_call (_cell self) inputs state env in
  let cell_state := get_cell_state wrapper_state in
  let attention_scores := get_alignments wrapper_state in
  let attention_context := get_attention wrapper_state in
  let logits := fully_connected cell_outputs (_vocab_size self) in
  let sample_ids := helper_sample (_helper self) time logits cell_state in
  let '(finished, next_inputs, next_state) :=
    helper_next_inputs (_helper self) time logits wrapper_state sample_ids in
  let outputs :=
    AttentionRNNDecoderOutput.mk
      logits sample_ids wrapper_outputs attention_scores attention_context in
  ((outputs, next_state, next_inputs, finished), env).

(** The implementation the claim about the doubled cell invocation compares
    [step] with: the cell is invoked once and its results serve both the
    logits and the recorded attention fields. *)
Definition step_single_call (self : Decoder Obj Cell Helper)
    (time inputs state : Obj) (name : option string) (env : CellEnv)
  : StepResult (AttentionRNNDecoderOutput.t Obj) * CellEnv :=
  let '((wrapper_outputs, wrapper_state), env) :=
    cell_call (_cell self) inputs state env in
  let cell_state := get_cell_state wrapper_state in
  let attention_scores := get_alignments wrapper_state in
  let attention_context := get_attention wrapper_state in
  let logits := fully_connected wrapper_outputs (_vocab_size self) in
  let sample_ids := helper_sample (_helper self) time logits cell_state in
  let '(finished, next_inputs, next_state) :=
    helper_next_inputs (_helper self) time logits wrapper_state sample_ids in
  let outputs :=
    AttentionRNNDecoderOutput.mk
      logits sample_ids wrapper_outputs attention_scores attention_context in
  ((outputs, next_state, next_inputs, finished), env).

Definition finalize {O S L : Type} (outputs : O) (final_state : S)
    (sequence_lengths : L) : O * S :=
  (outputs, final_state).

Definition output_dtype (self : Decoder Obj Cell Helper)
  : result (AttentionRNNDecoderOutput.t DType) :=
  AttentionRNNDecoderOutput.of_kwargs
    [("logits", float32);
     ("predicted_ids", int32);
     ("cell_output", float32);
     ("attention_scores", float32);
     ("attention_context", float32)].

End Methods.
End AttentionRNNDecoder.

(** ** The class definitions

    What each class body defines: plain methods with their required and
    defaulted parameters (after [self]), static methods, and properties. *)

Inductive Member :=
| Method (required optional : list string)
| StaticMethod (required optional : list string)
| Property.

Record PyClass := mkClass {
  cls_name : string;
  cls_bases : list string;
  cls_body : list (string * Member)
}.

(** The attribute a class body leaves under [name]: the last definition of
    that name wins. *)
Definition class_attr (c : PyClass) (name : string) : option Member :=
  kwarg_lookup name (rev (cls_body c)).

(** [obj.name(a1, ..., an)] with [n] positional arguments is a well-formed
    call of a method defined in the class body. *)
Definition callable_with (c : PyClass) (name : string) (n : nat) : bool :=
  match class_attr c name with
  | Some (Method required optional) =>
      Nat.leb (List.length required) n
      && Nat.leb n (List.length required + List.length optional)
  | _ => false
  end.

Definition is_property (c : PyClass) (name : string) : bool :=
  match class_attr c name with
  | Some Property => true
  | _ => false
  end.

Definition BasicRNNDecoder_class : PyClass :=
  mkClass "BasicRNNDecoder" ["RNNDecoderBase"]
    [("__init__", Method [] ["cell"; "embedding"; "vocab_size"; "hparams"]);
     ("default_hparams", StaticMethod [] []);
     ("initialize", Method [] ["name"]);
     ("step", Method ["time"; "inputs"; "state"] ["name"]);
     ("finalize", Method ["outputs"; "final_state"; "sequence_lengths"] []);
     ("output_size", Property);
     ("output_dtype", Property)].

Definition AttentionRNNDecoder_class : PyClass :=
  mkClass "AttentionRNNDecoder" ["RNNDecoderBase"]
    [("__init__",
      Method ["n_hidden"; "attention_keys"; "attention_values";
              "attention_values_length"]
             ["reverse_scores_lengths"; "cell_input_fn"; "cell"; "embedding";
              "vocab_size"; "hparams"]);
     ("default_hparams", StaticMethod [] []);
     ("initialize", Method [] ["name"]);
     ("step", Method ["time"; "inputs"; "state"] ["name"]);
     ("finalize", Method ["outputs"; "final_state"; "sequence_lengths"] []);
     ("output_size", Property);
     ("output_dtype", Property)].

(** The decoder contract of the generic decode loop: it calls
    [initialize()], [step(time, inputs, state)] and
    [finalize(outputs, final_state, sequence_lengths)], and reads
    [output_size] and [output_dtype]. *)
Definition exposes_decoder_contract (c : PyClass) : bool :=
  callable_with c "initialize" 0
  && callable_with c "step" 3
  && callable_with c "finalize" 3
  && is_property c "output_size"
  && is_property c "output_dtype".

(** ** Two concrete hosts, used to run the definitions *)

Module Toy.

(** A host over integers whose cell is deterministic: its results depend on
    the arguments only, while the environment counts the invocations. *)
Definition host : Host := {|
  Obj := Z;
  Cell := Z;
  Helper := unit;
  CellEnv := nat;
  cell_call := fun c i s e => ((i + s + c, s + 1)%Z, S e);
  fully_connected := fun x _ => (2 * x)%Z;
  helper_initialize := fun _ => [0%Z; 5%Z];
  helper_sample := fun _ _ o s => (o + s)%Z;
  helper_next_inputs := fun _ t o s ids => ((t - 9)%Z, ids, s);
  get_cell_state := fun s => s;
  get_alignments := fun s => (s + 10)%Z;
  get_attention := fun s => (s + 20)%Z;
  RNNDecoderBase_default_hparams :=
    <["name" := PStr "rnn_decoder"]> (<["use_embedding" := PBool true]> ∅);
  RNNDecoderBase_init := fun cell _ vocab_size _ =>
    Ok (mkDecoder (default 7%Z cell) tt 0%Z vocab_size);
  get_instance := fun _ kw _ =>
    match kw !! "num_units" with
    | Some (PInt n) => Ok n
    | _ => Raise (HostError "get_instance")
    end;
  AttentionWrapper := fun c m _ => Ok (c + m)%Z
|}.

(** The same host with a cell whose output is the number of invocations so
    far: two calls on the same arguments give different results. *)
Definition counting_host : Host := {|
  Obj := Z;
  Cell := Z;
  Helper := unit;
  CellEnv := nat;
  cell_call := fun c i s e => ((Z.of_nat e, s), S e);
  fully_connected := fun x _ => (2 * x)%Z;
  helper_initialize := fun _ => [0%Z; 5%Z];
  helper_sample := fun _ _ o s => (o + s)%Z;
  helper_next_inputs := fun _ t o s ids => ((t - 9)%Z, ids, s);
  get_cell_state := fun s => s;
  get_alignments := fun s => (s + 10)%Z;
  get_attention := fun s => (s + 20)%Z;
  RNNDecoderBase_default_hparams := ∅;
  RNNDecoderBase_init := fun cell _ vocab_size _ =>
    Ok (mkDecoder (default 7%Z cell) tt 0%Z vocab_size);
  get_instance := fun _ _ _ => Ok 0%Z;
  AttentionWrapper := fun c m _ => Ok (c + m)%Z
|}.

(** The first host with a helper whose [initialize()] returns one item only. *)
Definition short_host : Host := {|
  Obj := Z;
  Cell := Z;
  Helper := unit;
  CellEnv := nat;
  cell_call := fun c i s e => ((i + s + c, s + 1)%Z, S e);
  fully_connected := fun x _ => (2 * x)%Z;
  helper_initialize := fun _ => [0%Z];
  helper_sample := fun _ _ o s => (o + s)%Z;
  helper_next_inputs := fun _ t o s ids => ((t - 9)%Z, ids, s);
  get_cell_state := fun s => s;
  get_alignments := fun s => (s + 10)%Z;
  get_attention := fun s => (s + 20)%Z;
  RNNDecoderBase_default_hparams := ∅;
  RNNDecoderBase_init := fun cell _ vocab_size _ =>
    Ok (mkDecoder (default 7%Z cell) tt 0%Z vocab_size);
  get_instance := fun _ _ _ => Ok 0%Z;
  AttentionWrapper := fun c m _ => Ok (c + m)%Z
|}.

Definition decoder : Decoder Z Z unit := mkDecoder 7%Z tt 3%Z (PInt 100).

(** A hyperparameter tree with the keys the constructor reads. *)
Definition hparams : PyVal Z :=
  PDict (<["attention" :=
             PDict (<["class" := PStr "LuongAttention"]>
                   (<["params" := PDict (<["scale" := PBool true]> ∅)]>
                   (<["wrapper_params" :=
                        PDict (<["output_attention" := PBool true]> ∅)]> ∅)))]>
         ∅).

(** The constructor with every argument but [n_hidden] and [hparams] fixed. *)
Definition construct (n_hidden hparams : PyVal Z)
  : result (Decoder Z Z unit * PyVal Z) :=
  AttentionRNNDecoder.__init__ (H := host)
    n_hidden (PObj 1%Z) (PObj 2%Z) (PObj 3%Z) PNone PNone
    None PNone (PInt 100) hparams.

(** A tree holding [a] under "attention" and one more entry. *)
Definition tree (a : PyVal Z) : gmap string (PyVal Z) :=
  <["attention" := a]> (<["use_embedding" := PBool true]> ∅).

(** An "attention" dictionary from the given entries. *)
Definition entries (l : list (string * PyVal Z)) : PyVal Z :=
  PDict (list_to_map l).

End Toy.

(** ** Properties *)

Ltac unfold_bind := unfold mbind, result_bind, mret, result_ret in *.

Lemma bind_Ok_inv {A B} (m : result A) (f : A → result B) (b : B) :
  (x ← m; f x) = Ok b → ∃ a, m = Ok a ∧ f a = Ok b.
Proof.
  unfold_bind. destruct m as [a|e]; [|discriminate]. intros Hf. by exists a.
Qed.

Lemma getitem_Ok_inv {Obj} (v x : PyVal Obj) (k : string) :
  getitem v k = Ok x → ∃ d, v = PDict d ∧ d !! k = Some x.
Proof.
  destruct v; simpl; try discriminate.
  destruct (d !! k) as [y|] eqn:Hk; [|discriminate].
  intros [= ->]. by exists d.
Qed.

Lemma setitem_Ok_inv {Obj} (v x w : PyVal Obj) (k : string) :
  setitem v k x = Ok w → ∃ d, v = PDict d ∧ w = PDict (<[k := x]> d).
Proof.
  destruct v; simpl; try discriminate. intros [= <-]. by exists d.
Qed.

Lemma as_kwargs_Ok_inv {Obj} (v : PyVal Obj) (d : gmap string (PyVal Obj)) :
  as_kwargs v = Ok d → v = PDict d.
Proof. destruct v; simpl; try discriminate. by intros [= ->]. Qed.

(** A keyword that names no field makes the namedtuple call fail, whatever
    the other keywords are. *)
Lemma namedtuple_new_unexpected {A} fields (kwargs : list (string * A)) k v :
  (k, v) ∈ kwargs → is_field fields k = false →
  namedtuple_new fields kwargs = Raise TypeError.
Proof.
  intros Hin Hk. unfold namedtuple_new.
  destruct (forallb _ kwargs) eqn:Hall; [|done].
  rewrite forallb_forall in Hall.
  apply list_elem_of_In, Hall in Hin. simpl in Hin. congruence.
Qed.

Section DecoderProperties.
Context `{Host}.
Implicit Types self : Decoder Obj Cell Helper.

(** C1: both decoder classes define [initialize], [step] and [finalize] as
    methods callable the way the decode loop calls them, and [output_size]
    and [output_dtype] as properties. *)
Theorem decoders_expose_contract :
  exposes_decoder_contract BasicRNNDecoder_class = true
  ∧ exposes_decoder_contract AttentionRNNDecoder_class = true
  ∧ Forall
      (λ c, callable_with c "initialize" 0 = true
            ∧ callable_with c "step" 3 = true
            ∧ callable_with c "finalize" 3 = true
            ∧ class_attr c "output_size" = Some Property
            ∧ class_attr c "output_dtype" = Some Property)
      [BasicRNNDecoder_class; AttentionRNNDecoder_class].
Proof.
  split; [reflexivity|]. split; [reflexivity|].
  repeat (apply Forall_cons; split; [repeat split|]). apply Forall_nil_2.
Qed.

(** C2 (as the code behaves): reading [output_dtype] of an attention decoder
    raises [TypeError] for every decoder object, because the keywords
    [logits] and [predicted_ids] name no field of
    [AttentionRNNDecoderOutput]; the same property of the basic decoder
    returns the namedtuple of element types. *)
Theorem attention_output_dtype_raises self :
  AttentionRNNDecoder.output_dtype self = Raise TypeError
  ∧ is_field AttentionRNNDecoderOutput._fields "logits" = false
  ∧ is_field AttentionRNNDecoderOutput._fields "predicted_ids" = false
  ∧ BasicRNNDecoder.output_dtype self
    = Ok (BasicRNNDecoderOutput.mk float32 int32).
Proof. repeat split. Qed.

(** With the field names of the namedtuple the same call succeeds: the
    failure is due to the two keyword names only. *)
Lemma attention_output_dtype_with_field_names :
  AttentionRNNDecoderOutput.of_kwargs
    [("rnn_output", float32); ("sample_id", int32); ("cell_output", float32);
     ("attention_scores", float32); ("attention_context", float32)]
  = Ok (AttentionRNNDecoderOutput.mk float32 int32 float32 float32 float32).
Proof. reflexivity. Qed.

End DecoderProperties.

Section ConstructorProperties.
Context `{Host}.
Implicit Types self : Decoder Obj Cell Helper.
Implicit Types hparams : PyVal Obj.

(** When the base constructor fails, its exception is what the constructor
    raises. *)
Lemma init_base_raises n_hidden attention_keys attention_values
    attention_values_length reverse_scores_lengths cell_input_fn
    cell embedding vocab_size hparams e :
  RNNDecoderBase_init cell embedding vocab_size hparams = Raise e →
  AttentionRNNDecoder.__init__ n_hidden attention_keys attention_values
    attention_values_length reverse_scores_lengths cell_input_fn
    cell embedding vocab_size hparams = Raise e.
Proof. intros Hb. unfold AttentionRNNDecoder.__init__. by rewrite Hb. Qed.

(** The defaults carry an "attention" dictionary without a "class" key. *)
Lemma default_hparams_attention_class :
  getitem (PDict AttentionRNNDecoder.default_hparams) "attention"
  = Ok AttentionRNNDecoder.attention_defaults
  ∧ getitem AttentionRNNDecoder.attention_defaults "class"
    = Raise (KeyError "class").
Proof.
  split.
  - unfold AttentionRNNDecoder.default_hparams. simpl.
    rewrite lookup_insert_eq. reflexivity.
  - reflexivity.
Qed.

(** C3 (as the code behaves): with [hparams] left at [None] the constructor
    never completes, and once the base constructor has returned it raises
    [TypeError] from subscripting [None]; with
    [hparams = AttentionRNNDecoder.default_hparams()] it never completes
    either and raises [KeyError 'class'] from its own look-up. *)
Theorem init_fails_on_none_and_defaults n_hidden attention_keys
    attention_values attention_values_length reverse_scores_lengths
    cell_input_fn cell embedding vocab_size :
  let construct := AttentionRNNDecoder.__init__ n_hidden attention_keys
    attention_values attention_values_length reverse_scores_lengths
    cell_input_fn cell embedding vocab_size in
  let defaults := PDict AttentionRNNDecoder.default_hparams in
  is_ok (construct PNone) = false
  ∧ is_ok (construct defaults) = false
  ∧ construct PNone
    = match RNNDecoderBase_init cell embedding vocab_size PNone with
      | Ok _ => Raise TypeError
      | Raise e => Raise e
      end
  ∧ construct defaults
    = match RNNDecoderBase_init cell embedding vocab_size defaults with
      | Ok _ => Raise (KeyError "class")
      | Raise e => Raise e
      end.
Proof.
  intros construct defaults. subst construct defaults.
  destruct default_hparams_attention_class as [Hatt Hcls].
  unfold AttentionRNNDecoder.__init__.
  destruct (RNNDecoderBase_init cell embedding vocab_size PNone)
    as [self0|e0] eqn:Hnone;
  destruct (RNNDecoderBase_init cell embedding vocab_size
              (PDict AttentionRNNDecoder.default_hparams))
    as [self1|e1] eqn:Hdef;
  unfold_bind; rewrite ?Hnone, ?Hdef, ?Hatt, ?Hcls; repeat split.
Qed.

(** The keyword arguments handed to [get_instance]: the configured ones with
    the three entries the constructor sets. *)
Lemma attention_kwargs_entries (params : gmap string (PyVal Obj))
    (n_hidden attention_keys attention_values_length : PyVal Obj) :
  let kwargs :=
    <["memory" := attention_keys]>
      (<["memory_sequence_length" := attention_values_length]>
         (<["num_units" := n_hidden]> params)) in
  kwargs !! "num_units" = Some n_hidden
  ∧ kwargs !! "memory" = Some attention_keys
  ∧ kwargs !! "memory_sequence_length" = Some attention_values_length.
Proof.
  intros kwargs. subst kwargs. repeat split.
  - rewrite !lookup_insert_ne by done. apply lookup_insert_eq.
  - apply lookup_insert_eq.
  - rewrite lookup_insert_ne by done. apply lookup_insert_eq.
Qed.

(** C4: whenever the constructor completes, [hparams] holds an "attention"
    dictionary with the entries "class", "params" and "wrapper_params"; the
    attention mechanism is what [get_instance] returns for the configured
    class, the module list ['txtgen.custom', 'tensorflow.contrib.seq2seq']
    and the configured keyword arguments with [num_units = n_hidden],
    [memory = attention_keys] and
    [memory_sequence_length = attention_values_length]; and the decoder's
    cell is the [AttentionWrapper] of the base decoder's cell around that
    mechanism. *)
Theorem init_installs_attention_wrapper n_hidden attention_keys
    attention_values attention_values_length reverse_scores_lengths
    cell_input_fn cell embedding vocab_size hparams self' hparams' :
  AttentionRNNDecoder.__init__ n_hidden attention_keys attention_values
    attention_values_length reverse_scores_lengths cell_input_fn
    cell embedding vocab_size hparams = Ok (self', hparams') →
  ∃ self0 h a attention_class params wrapper_params
      attention_mechanism attn_cell,
    RNNDecoderBase_init cell embedding vocab_size hparams = Ok self0
    ∧ hparams = PDict h
    ∧ h !! "attention" = Some (PDict a)
    ∧ a !! "class" = Some attention_class
    ∧ a !! "params" = Some (PDict params)
    ∧ a !! "wrapper_params" = Some (PDict wrapper_params)
    ∧ let attention_kwargs :=
        <["memory" := attention_keys]>
          (<["memory_sequence_length" := attention_values_length]>
             (<["num_units" := n_hidden]> params)) in
      attention_kwargs !! "num_units" = Some n_hidden
      ∧ attention_kwargs !! "memory" = Some attention_keys
      ∧ attention_kwargs !! "memory_sequence_length"
        = Some attention_values_length
      ∧ get_instance attention_class attention_kwargs
          ["txtgen.custom"; "tensorflow.contrib.seq2seq"]
        = Ok attention_mechanism
      ∧ AttentionWrapper (_cell self0) attention_mechanism wrapper_params
        = Ok attn_cell
      ∧ self' = set_cell self0 attn_cell
      ∧ _cell self' = attn_cell
      ∧ hparams'
        = PDict (<["attention" :=
                     PDict (<["params" := PDict attention_kwargs]> a)]> h).
Proof.
  unfold AttentionRNNDecoder.__init__. intros Hinit.
  apply bind_Ok_inv in Hinit as (self0 & Hbase & Hinit).
  apply bind_Ok_inv in Hinit as (att_params & Hatt & Hinit).
  apply getitem_Ok_inv in Hatt as (h & -> & Hh).
  apply bind_Ok_inv in Hinit as (attention_class & Hcls & Hinit).
  apply bind_Ok_inv in Hcls as (a1 & Ha1 & Hcls).
  apply getitem_Ok_inv in Ha1 as (h1 & [= <-] & Hh1).
  rewrite Hh in Hh1. injection Hh1 as <-.
  apply getitem_Ok_inv in Hcls as (a & -> & Hclass).
  apply bind_Ok_inv in Hinit as (kw0 & Hkw0 & Hinit).
  apply bind_Ok_inv in Hkw0 as (a2 & Ha2 & Hkw0).
  apply getitem_Ok_inv in Ha2 as (h2 & [= <-] & Hh2).
  rewrite Hh in Hh2. injection Hh2 as <-.
  apply getitem_Ok_inv in Hkw0 as (a3 & [= <-] & Hparams).
  apply bind_Ok_inv in Hinit as (kw1 & Hkw1 & Hinit).
  apply setitem_Ok_inv in Hkw1 as (params & -> & ->).
  apply bind_Ok_inv in Hinit as (kw2 & Hkw2 & Hinit).
  apply setitem_Ok_inv in Hkw2 as (p2 & [= <-] & ->).
  apply bind_Ok_inv in Hinit as (kw3 & Hkw3 & Hinit).
  apply setitem_Ok_inv in Hkw3 as (p3 & [= <-] & ->).
  cbv zeta in Hinit. unfold AttentionRNNDecoder.store_params in Hinit.
  rewrite Hh in Hinit.
  apply bind_Ok_inv in Hinit as (kwargs & Hkwargs & Hinit).
  apply as_kwargs_Ok_inv in Hkwargs as [= <-].
  apply bind_Ok_inv in Hinit as (attention_mechanism & Hmech & Hinit).
  apply bind_Ok_inv in Hinit as (wp & Hwp & Hinit).
  apply bind_Ok_inv in Hwp as (a4 & Ha4 & Hwp).
  apply getitem_Ok_inv in Ha4 as (h4 & [= <-] & Hh4).
  rewrite lookup_insert_eq in Hh4. injection Hh4 as <-.
  apply getitem_Ok_inv in Hwp as (a5 & [= <-] & Hwrapper).
  rewrite lookup_insert_ne in Hwrapper by done.
  apply bind_Ok_inv in Hinit as (wrapper_params & Hwk & Hinit).
  apply as_kwargs_Ok_inv in Hwk as ->.
  apply bind_Ok_inv in Hinit as (attn_cell & Hwrap & Hinit).
  injection Hinit as <- <-.
  exists self0, h, a, attention_class, params, wrapper_params,
    attention_mechanism, attn_cell.
  destruct (attention_kwargs_entries params n_hidden attention_keys
              attention_values_length) as (Hn & Hm & Hl).
  repeat split; done.
Qed.

End ConstructorProperties.

Section MethodProperties.
Context `{Host}.
Implicit Types self : Decoder Obj Cell Helper.
Implicit Types time inputs state : Obj.

(** C5: for both decoders [step] returns the four-tuple
    (outputs, next_state, next_inputs, finished), whose last three components
    are the helper's (finished, next_inputs, next_state) for this step's
    logits and sample ids, in the order the decode loop expects. *)
Theorem step_returns_four_tuple self time inputs state name env :
  (∃ outputs next_state next_inputs finished,
     (BasicRNNDecoder.step self time inputs state name env).1
     = (outputs, next_state, next_inputs, finished)
     ∧ helper_next_inputs (_helper self) time
         (BasicRNNDecoderOutput.rnn_output outputs)
         (cell_call (_cell self) inputs state env).1.2
         (BasicRNNDecoderOutput.sample_id outputs)
       = (finished, next_inputs, next_state))
  ∧ (∃ outputs next_state next_inputs finished,
       (AttentionRNNDecoder.step self time inputs state name env).1
       = (outputs, next_state, next_inputs, finished)
       ∧ helper_next_inputs (_helper self) time
           (AttentionRNNDecoderOutput.rnn_output outputs)
           (cell_call (_cell self) inputs state
              (cell_call (_cell self) inputs state env).2).1.2
           (AttentionRNNDecoderOutput.sample_id outputs)
         = (finished, next_inputs, next_state)).
Proof.
  split.
  - unfold BasicRNNDecoder.step.
    destruct (cell_call (_cell self) inputs state env) as [[co cs] e1].
    simpl.
    destruct (helper_next_inputs _ _ _ _ _) as [[f ni] ns] eqn:Hn.
    by exists (BasicRNNDecoderOutput.mk
                 (fully_connected co (_vocab_size self))
                 (helper_sample (_helper self) time
                    (fully_connected co (_vocab_size self)) cs)), ns, ni, f.
  - unfold AttentionRNNDecoder.step.
    destruct (cell_call (_cell self) inputs state env) as [[co cs] e1].
    simpl.
    destruct (cell_call (_cell self) inputs state e1) as [[wo ws] e2].
    simpl.
    destruct (helper_next_inputs _ _ _ _ _) as [[f ni] ns] eqn:Hn.
    by exists (AttentionRNNDecoderOutput.mk
                 (fully_connected co (_vocab_size self))
                 (helper_sample (_helper self) time
                    (fully_connected co (_vocab_size self))
                    (get_cell_state ws))
                 wo (get_alignments ws) (get_attention ws)), ns, ni, f.
Qed.

(** C6: in [step] of both decoders the logits are the projection of the
    cell output, the [sample_id] field is the helper's [sample] on these
    logits, and the finished flag is the first component of the helper's
    [next_inputs] on these logits and sample ids. *)
Theorem step_sampling_and_termination_by_helper
    self time inputs state name env :
  (let r := (BasicRNNDecoder.step self time inputs state name env).1 in
   let outputs := r.1.1.1 in
   let finished := r.2 in
   let cell := (cell_call (_cell self) inputs state env).1 in
   let logits := fully_connected cell.1 (_vocab_size self) in
   BasicRNNDecoderOutput.rnn_output outputs = logits
   ∧ BasicRNNDecoderOutput.sample_id outputs
     = helper_sample (_helper self) time logits cell.2
   ∧ finished
     = (helper_next_inputs (_helper self) time logits cell.2
          (BasicRNNDecoderOutput.sample_id outputs)).1.1)
  ∧ (let r := (AttentionRNNDecoder.step self time inputs state name env).1 in
     let outputs := r.1.1.1 in
     let finished := r.2 in
     let first := cell_call (_cell self) inputs state env in
     let second := (cell_call (_cell self) inputs state first.2).1 in
     let wrapper_state := second.2 in
     let logits := fully_connected first.1.1 (_vocab_size self) in
     AttentionRNNDecoderOutput.rnn_output outputs = logits
     ∧ AttentionRNNDecoderOutput.sample_id outputs
       = helper_sample (_helper self) time logits
           (get_cell_state wrapper_state)
     ∧ finished
       = (helper_next_inputs (_helper self) time logits wrapper_state
            (AttentionRNNDecoderOutput.sample_id outputs)).1.1).
Proof.
  split.
  - unfold BasicRNNDecoder.step.
    destruct (cell_call (_cell self) inputs state env) as [[co cs] e1].
    simpl.
    destruct (helper_next_inputs _ _ _ _ _) as [[f ni] ns] eqn:Hn.
    simpl. rewrite Hn. auto.
  - unfold AttentionRNNDecoder.step.
    destruct (cell_call (_cell self) inputs state env) as [[co cs] e1].
    simpl.
    destruct (cell_call (_cell self) inputs state e1) as [[wo ws] e2].
    simpl.
    destruct (helper_next_inputs _ _ _ _ _) as [[f ni] ns] eqn:Hn.
    simpl. rewrite Hn. auto.
Qed.

(** The cell invocations of the two implementations: [step] runs the cell
    twice on (inputs, state), [step_single_call] once. *)
Lemma step_cell_invocations self time inputs state name env :
  (AttentionRNNDecoder.step self time inputs state name env).2
  = (cell_call (_cell self) inputs state
       (cell_call (_cell self) inputs state env).2).2
  ∧ (AttentionRNNDecoder.step_single_call self time inputs state name env).2
    = (cell_call (_cell self) inputs state env).2.
Proof.
  unfold AttentionRNNDecoder.step, AttentionRNNDecoder.step_single_call.
  destruct (cell_call (_cell self) inputs state env) as [[co cs] e1].
  simpl.
  destruct (cell_call (_cell self) inputs state e1) as [[wo ws] e2].
  split; by destruct (helper_next_inputs _ _ _ _ _) as [[f ni] ns].
Qed.

(** C7: [step] invokes the cell twice on the same (inputs, state), the
    second time over the environment the first invocation left.  If the
    result of a cell invocation does not depend on the cell's hidden
    environment, the two invocations return the same (output, state) pair,
    and [step] returns the same four-tuple as the implementation that
    invokes the cell once. *)
Theorem step_equals_single_call self time inputs state name env :
  (∀ i s e e',
     (cell_call (_cell self) i s e).1 = (cell_call (_cell self) i s e').1) →
  let first := cell_call (_cell self) inputs state env in
  let second := cell_call (_cell self) inputs state first.2 in
  second.1 = first.1
  ∧ (AttentionRNNDecoder.step self time inputs state name env).2 = second.2
  ∧ (AttentionRNNDecoder.step_single_call self time inputs state name env).2
    = first.2
  ∧ (AttentionRNNDecoder.step self time inputs state name env).1
    = (AttentionRNNDecoder.step_single_call self time inputs state name env).1.
Proof.
  intros Hdet first second. subst first second.
  destruct (step_cell_invocations self time inputs state name env)
    as [Htwice Honce].
  pose proof (Hdet inputs state
                (cell_call (_cell self) inputs state env).2 env) as Hsame.
  split; [exact Hsame|]. split; [exact Htwice|]. split; [exact Honce|].
  unfold AttentionRNNDecoder.step, AttentionRNNDecoder.step_single_call.
  destruct (cell_call (_cell self) inputs state env) as [[co cs] e1].
  simpl in *.
  destruct (cell_call (_cell self) inputs state e1) as [[wo ws] e2].
  simpl in Hsame. injection Hsame as -> ->.
  by destruct (helper_next_inputs _ _ _ _ _) as [[f ni] ns].
Qed.

(** C8: when the helper's [initialize()] returns the pair
    (finished, first_inputs), [initialize] of both decoders returns the
    three-element sequence (finished, first_inputs, initial state): a tuple
    for the basic decoder, a list for the attention decoder. *)
Theorem initialize_returns_triple self name finished first_inputs :
  helper_initialize (_helper self) = [finished; first_inputs] →
  BasicRNNDecoder.initialize self name
  = PyTuple [finished; first_inputs; _initial_state self]
  ∧ AttentionRNNDecoder.initialize self name
    = Ok (PyList [finished; first_inputs; _initial_state self]).
Proof.
  intros Hh.
  unfold BasicRNNDecoder.initialize, AttentionRNNDecoder.initialize.
  rewrite Hh. split; reflexivity.
Qed.

(** C9: [finalize] of both decoders returns (outputs, final_state) and does
    not depend on [sequence_lengths]. *)
Theorem finalize_is_identity {O S L : Type}
    (outputs : O) (final_state : S) (sequence_lengths other_lengths : L) :
  BasicRNNDecoder.finalize outputs final_state sequence_lengths
  = (outputs, final_state)
  ∧ AttentionRNNDecoder.finalize outputs final_state sequence_lengths
    = (outputs, final_state)
  ∧ BasicRNNDecoder.finalize outputs final_state sequence_lengths
    = BasicRNNDecoder.finalize outputs final_state other_lengths
  ∧ AttentionRNNDecoder.finalize outputs final_state sequence_lengths
    = AttentionRNNDecoder.finalize outputs final_state other_lengths.
Proof. repeat split. Qed.

(** C10: the defaults of the basic decoder are the base defaults with "name"
    set to "basic_rnn_decoder"; those of the attention decoder are the base
    defaults with "name" set to "attention_rnn_decoder" and "attention" set
    to the fixed dictionary; every other key reads as in the base defaults. *)
Theorem default_hparams_frame :
  let base := RNNDecoderBase_default_hparams in
  let attention_entry : PyVal Obj :=
    PDict (list_to_map
      [("type", PStr "LuongAttention");
       ("kwargs", PDict (list_to_map
          [("num_units", PInt 512);
           ("probability_fn", PStr "tensorflow.nn.softmax")]));
       ("attention_layer_size", PNone);
       ("alignment_history", PBool false);
       ("output_attention", PBool true)]) in
  BasicRNNDecoder.default_hparams
  = <["name" := PStr "basic_rnn_decoder"]> base
  ∧ (∀ k, BasicRNNDecoder.default_hparams !! k
          = if decide (k = "name") then Some (PStr "basic_rnn_decoder")
            else base !! k)
  ∧ AttentionRNNDecoder.default_hparams
    = <["attention" := attention_entry]>
        (<["name" := PStr "attention_rnn_decoder"]> base)
  ∧ (∀ k, AttentionRNNDecoder.default_hparams !! k
          = if decide (k = "attention") then Some attention_entry
            else if decide (k = "name")
                 then Some (PStr "attention_rnn_decoder")
                 else base !! k).
Proof.
  intros base attention_entry.
  assert (AttentionRNNDecoder.attention_defaults = attention_entry) as Hentry
    by reflexivity.
  unfold BasicRNNDecoder.default_hparams, AttentionRNNDecoder.default_hparams.
  cbv zeta. rewrite Hentry. fold base.
  split; [reflexivity|]. split.
  - intros k. rewrite lookup_insert. repeat case_decide; congruence.
  - split; [reflexivity|].
    intros k. rewrite !lookup_insert. repeat case_decide; congruence.
Qed.

End MethodProperties.

(** ** The properties at concrete inputs *)

Lemma init_installs_attention_wrapper_witness :
  ∃ r,
    AttentionRNNDecoder.__init__ (H := Toy.host)
      (PInt 64) (PObj 1%Z) (PObj 2%Z) (PObj 3%Z) PNone PNone
      None PNone (PInt 100) Toy.hparams = Ok r
    ∧ ∃ self0 attention_mechanism wrapper_params attn_cell,
        RNNDecoderBase_init (Host := Toy.host) None PNone (PInt 100)
          Toy.hparams = Ok self0
        ∧ AttentionWrapper (Host := Toy.host) (_cell self0)
            attention_mechanism wrapper_params = Ok attn_cell
        ∧ _cell r.1 = attn_cell.
Proof.
  eexists (_, _). split; [vm_compute; reflexivity|].
  edestruct (init_installs_attention_wrapper (H := Toy.host)
               (PInt 64) (PObj 1%Z) (PObj 2%Z) (PObj 3%Z) PNone PNone
               None PNone (PInt 100) Toy.hparams)
    as (self0 & h & a & cls & params & wp & mech & attn_cell & Hbase & _ & _
        & _ & _ & _ & _ & _ & _ & _ & Hwrap & _ & Hcell & _);
    [vm_compute; reflexivity|].
  exists self0, mech, wp, attn_cell. auto.
Defined.

Lemma step_equals_single_call_witness :
  (∀ i s e e',
     (cell_call (Host := Toy.host) (_cell Toy.decoder) i s e).1
     = (cell_call (Host := Toy.host) (_cell Toy.decoder) i s e').1)
  ∧ (AttentionRNNDecoder.step (H := Toy.host)
       Toy.decoder 1%Z 2%Z 3%Z None 0%nat).1
    = (AttentionRNNDecoder.step_single_call (H := Toy.host)
         Toy.decoder 1%Z 2%Z 3%Z None 0%nat).1.
Proof.
  split; [intros; reflexivity|].
  apply (step_equals_single_call (H := Toy.host)
           Toy.decoder 1%Z 2%Z 3%Z None 0%nat).
  intros; reflexivity.
Defined.

(** Without the assumption on the cell the two implementations differ: over
    the counting cell the recorded [cell_output] is the second invocation's
    result in [step] and the first one's in [step_single_call]. *)
Lemma step_differs_for_counting_cell :
  AttentionRNNDecoderOutput.cell_output
    (AttentionRNNDecoder.step (H := Toy.counting_host)
       Toy.decoder 1%Z 2%Z 3%Z None 0%nat).1.1.1.1 = 1%Z
  ∧ AttentionRNNDecoderOutput.cell_output
      (AttentionRNNDecoder.step_single_call (H := Toy.counting_host)
         Toy.decoder 1%Z 2%Z 3%Z None 0%nat).1.1.1.1 = 0%Z.
Proof. split; reflexivity. Qed.

Lemma initialize_returns_triple_witness :
  helper_initialize (Host := Toy.host) (_helper Toy.decoder) = [0%Z; 5%Z]
  ∧ BasicRNNDecoder.initialize (H := Toy.host) Toy.decoder None
    = PyTuple [0%Z; 5%Z; 3%Z]
  ∧ AttentionRNNDecoder.initialize (H := Toy.host) Toy.decoder None
    = Ok (PyList [0%Z; 5%Z; 3%Z]).
Proof.
  split; [reflexivity|].
  apply (initialize_returns_triple (H := Toy.host) Toy.decoder None 0%Z 5%Z).
  reflexivity.
Defined.

(** ** Further properties of the constructor *)

Section ConstructorBehaviour.
Context `{Host}.
Context (n_hidden attention_keys attention_values attention_values_length
           reverse_scores_lengths cell_input_fn : PyVal Obj)
        (cell : option Cell) (embedding vocab_size : PyVal Obj).
Implicit Types h a params wrapper_params : gmap string (PyVal Obj).

Local Abbreviation construct :=
  (AttentionRNNDecoder.__init__ n_hidden attention_keys attention_values
     attention_values_length reverse_scores_lengths cell_input_fn
     cell embedding vocab_size).

Local Abbreviation with_entries params :=
  (<["memory" := attention_keys]>
     (<["memory_sequence_length" := attention_values_length]>
        (<["num_units" := n_hidden]> params))).

(** What a completed construction tells about its inputs and results. *)
Lemma init_Ok_inv hparams self' hparams' :
  construct hparams = Ok (self', hparams') →
  ∃ self0 h a attention_class params wrapper_params
      attention_mechanism attn_cell,
    RNNDecoderBase_init cell embedding vocab_size hparams = Ok self0
    ∧ hparams = PDict h
    ∧ h !! "attention" = Some (PDict a)
    ∧ a !! "class" = Some attention_class
    ∧ a !! "params" = Some (PDict params)
    ∧ a !! "wrapper_params" = Some (PDict wrapper_params)
    ∧ get_instance attention_class (with_entries params)
        AttentionRNNDecoder.attention_modules = Ok attention_mechanism
    ∧ AttentionWrapper (_cell self0) attention_mechanism wrapper_params
      = Ok attn_cell
    ∧ self' = set_cell self0 attn_cell
    ∧ hparams'
      = PDict (<["attention" :=
                   PDict (<["params" := PDict (with_entries params)]> a)]> h).
Proof.
  unfold AttentionRNNDecoder.__init__. intros Hinit.
  apply bind_Ok_inv in Hinit as (self0 & Hbase & Hinit).
  apply bind_Ok_inv in Hinit as (att_params & Hatt & Hinit).
  apply getitem_Ok_inv in Hatt as (h & -> & Hh).
  apply bind_Ok_inv in Hinit as (attention_class & Hcls & Hinit).
  apply bind_Ok_inv in Hcls as (a1 & Ha1 & Hcls).
  apply getitem_Ok_inv in Ha1 as (h1 & [= <-] & Hh1).
  rewrite Hh in Hh1. injection Hh1 as <-.
  apply getitem_Ok_inv in Hcls as (a & -> & Hclass).
  apply bind_Ok_inv in Hinit as (kw0 & Hkw0 & Hinit).
  apply bind_Ok_inv in Hkw0 as (a2 & Ha2 & Hkw0).
  apply getitem_Ok_inv in Ha2 as (h2 & [= <-] & Hh2).
  rewrite Hh in Hh2. injection Hh2 as <-.
  apply getitem_Ok_inv in Hkw0 as (a3 & [= <-] & Hparams).
  apply bind_Ok_inv in Hinit as (kw1 & Hkw1 & Hinit).
  apply setitem_Ok_inv in Hkw1 as (params & -> & ->).
  apply bind_Ok_inv in Hinit as (kw2 & Hkw2 & Hinit).
  apply setitem_Ok_inv in Hkw2 as (p2 & [= <-] & ->).
  apply bind_Ok_inv in Hinit as (kw3 & Hkw3 & Hinit).
  apply setitem_Ok_inv in Hkw3 as (p3 & [= <-] & ->).
  cbv zeta in Hinit. unfold AttentionRNNDecoder.store_params in Hinit.
  rewrite Hh in Hinit.
  apply bind_Ok_inv in Hinit as (kwargs & Hkwargs & Hinit).
  apply as_kwargs_Ok_inv in Hkwargs as [= <-].
  apply bind_Ok_inv in Hinit as (attention_mechanism & Hmech & Hinit).
  apply bind_Ok_inv in Hinit as (wp & Hwp & Hinit).
  apply bind_Ok_inv in Hwp as (a4 & Ha4 & Hwp).
  apply getitem_Ok_inv in Ha4 as (h4 & [= <-] & Hh4).
  rewrite lookup_insert_eq in Hh4. injection Hh4 as <-.
  apply getitem_Ok_inv in Hwp as (a5 & [= <-] & Hwrapper).
  rewrite lookup_insert_ne in Hwrapper by done.
  apply bind_Ok_inv in Hinit as (wrapper_params & Hwk & Hinit).
  apply as_kwargs_Ok_inv in Hwk as ->.
  apply bind_Ok_inv in Hinit as (attn_cell & Hwrap & Hinit).
  injection Hinit as <- <-.
  by exists self0, h, a, attention_class, params, wrapper_params,
    attention_mechanism, attn_cell.
Qed.

(** The constructor up to the call of [get_instance], for a tree that holds
    the "class" and "params" entries. *)
Lemma init_upto_get_instance h a attention_class params self0 :
  RNNDecoderBase_init cell embedding vocab_size (PDict h) = Ok self0 →
  h !! "attention" = Some (PDict a) →
  a !! "class" = Some attention_class →
  a !! "params" = Some (PDict params) →
  construct (PDict h)
  = (attention_mechanism ←
       get_instance attention_class (with_entries params)
         AttentionRNNDecoder.attention_modules;
     match a !! "wrapper_params" with
     | None => Raise (KeyError "wrapper_params")
     | Some (PDict wrapper_params) =>
         attn_cell ←
           AttentionWrapper (_cell self0) attention_mechanism wrapper_params;
         Ok (set_cell self0 attn_cell,
             PDict (<["attention" :=
                        PDict (<["params" := PDict (with_entries params)]> a)]>
                    h))
     | Some _ => Raise TypeError
     end).
Proof.
  intros Hbase Hh Hclass Hparams.
  unfold AttentionRNNDecoder.__init__. rewrite Hbase.
  unfold_bind. simpl. rewrite Hh. simpl. rewrite Hclass, Hparams. simpl.
  unfold AttentionRNNDecoder.store_params. rewrite ?Hh.
  destruct (get_instance _ _ _) as [mech|e]; [|reflexivity].
  simpl. rewrite lookup_insert_eq. simpl.
  rewrite lookup_insert_ne by done.
  destruct (a !! "wrapper_params") as [[| | | |wp|]|]; reflexivity.
Qed.

(** X1: a hyperparameter tree whose "attention" dictionary holds "class",
    a dictionary under "params" and a dictionary under "wrapper_params" makes
    the constructor complete whenever the base constructor, [get_instance]
    and [AttentionWrapper] complete; the decoder is the base decoder with the
    wrapped cell. *)
Theorem init_succeeds_with_required_keys
    h a attention_class params wrapper_params self0 mechanism attn_cell :
  RNNDecoderBase_init cell embedding vocab_size (PDict h) = Ok self0 →
  h !! "attention" = Some (PDict a) →
  a !! "class" = Some attention_class →
  a !! "params" = Some (PDict params) →
  a !! "wrapper_params" = Some (PDict wrapper_params) →
  get_instance attention_class (with_entries params)
    ["txtgen.custom"; "tensorflow.contrib.seq2seq"] = Ok mechanism →
  AttentionWrapper (_cell self0) mechanism wrapper_params = Ok attn_cell →
  construct (PDict h)
  = Ok (set_cell self0 attn_cell,
        PDict (<["attention" :=
                   PDict (<["params" := PDict (with_entries params)]> a)]> h)).
Proof.
  intros Hbase Hh Hclass Hparams Hwrapper Hmech Hwrap.
  rewrite (init_upto_get_instance h a attention_class params self0) by done.
  unfold AttentionRNNDecoder.attention_modules. rewrite Hmech.
  unfold_bind. simpl. rewrite Hwrapper, Hwrap. reflexivity.
Qed.


(** The three entries set by the constructor are already in place in a
    dictionary the constructor has updated. *)
Lemma with_entries_idempotent params :
  with_entries (with_entries params) = with_entries params.
Proof.
  apply map_eq. intros k. rewrite !lookup_insert.
  repeat case_decide; congruence.
Qed.

(** X3: constructing again from the [hparams] a completed construction left
    behind, with the same arguments, leaves [hparams] as it is. *)
Theorem init_again_keeps_hparams hparams self1 hparams1 self2 hparams2 :
  construct hparams = Ok (self1, hparams1) →
  construct hparams1 = Ok (self2, hparams2) →
  hparams2 = hparams1.
Proof.
  intros Hfirst Hsecond.
  apply init_Ok_inv in Hfirst
    as (s0 & h & a & cls & params & wp & mech & attn_cell & _ & -> & Hh
        & _ & Hparams & _ & _ & _ & _ & ->).
  apply init_Ok_inv in Hsecond
    as (s0' & h' & a' & cls' & params' & wp' & mech' & attn_cell' & _
        & [= <-] & Hh' & _ & Hparams' & _ & _ & _ & _ & ->).
  rewrite lookup_insert_eq in Hh'. injection Hh' as <-.
  rewrite lookup_insert_eq in Hparams'. injection Hparams' as <-.
  by rewrite with_entries_idempotent, !insert_insert_eq.
Qed.

(** X4: a dictionary without an "attention" entry makes the constructor
    raise [KeyError 'attention'] once the base constructor has returned. *)
Theorem init_missing_attention h self0 :
  RNNDecoderBase_init cell embedding vocab_size (PDict h) = Ok self0 →
  h !! "attention" = None →
  construct (PDict h) = Raise (KeyError "attention").
Proof.
  intros Hbase Hh. unfold AttentionRNNDecoder.__init__. rewrite Hbase.
  unfold_bind. simpl. by rewrite Hh.
Qed.

(** X5: an "attention" dictionary without a "class" entry makes the
    constructor raise [KeyError 'class'], whatever else the tree holds. *)
Theorem init_missing_class h a self0 :
  RNNDecoderBase_init cell embedding vocab_size (PDict h) = Ok self0 →
  h !! "attention" = Some (PDict a) →
  a !! "class" = None →
  construct (PDict h) = Raise (KeyError "class").
Proof.
  intros Hbase Hh Hclass. unfold AttentionRNNDecoder.__init__. rewrite Hbase.
  unfold_bind. simpl. rewrite Hh. simpl. by rewrite Hclass.
Qed.

(** X6: with "class" present, "params" has to be a dictionary: a missing
    entry raises [KeyError 'params'], any other value (such as [None])
    raises [TypeError] at the first item assignment. *)
Theorem init_params_must_be_dict h a attention_class self0 :
  RNNDecoderBase_init cell embedding vocab_size (PDict h) = Ok self0 →
  h !! "attention" = Some (PDict a) →
  a !! "class" = Some attention_class →
  (∀ params, a !! "params" ≠ Some (PDict params)) →
  construct (PDict h)
  = Raise (match a !! "params" with
           | None => KeyError "params"
           | Some _ => TypeError
           end).
Proof.
  intros Hbase Hh Hclass Hparams. unfold AttentionRNNDecoder.__init__.
  rewrite Hbase. unfold_bind. simpl. rewrite Hh. simpl. rewrite Hclass.
  destruct (a !! "params") as [[| | | |params|]|] eqn:Hp; try reflexivity.
  by destruct (Hparams params).
Qed.

(** X7: an exception of [get_instance] is what the constructor raises, also
    when "wrapper_params" is missing: that entry is read only after the
    attention mechanism has been built. *)
Theorem init_get_instance_error_first h a attention_class params self0 e :
  RNNDecoderBase_init cell embedding vocab_size (PDict h) = Ok self0 →
  h !! "attention" = Some (PDict a) →
  a !! "class" = Some attention_class →
  a !! "params" = Some (PDict params) →
  get_instance attention_class (with_entries params)
    ["txtgen.custom"; "tensorflow.contrib.seq2seq"] = Raise e →
  construct (PDict h) = Raise e.
Proof.
  intros Hbase Hh Hclass Hparams Hmech.
  rewrite (init_upto_get_instance h a attention_class params self0) by done.
  unfold AttentionRNNDecoder.attention_modules. by rewrite Hmech.
Qed.

(** X8: once the attention mechanism is built, "wrapper_params" has to be a
    dictionary: a missing entry raises [KeyError 'wrapper_params'], any other
    value raises [TypeError]. *)
Theorem init_wrapper_params_must_be_dict
    h a attention_class params self0 mechanism :
  RNNDecoderBase_init cell embedding vocab_size (PDict h) = Ok self0 →
  h !! "attention" = Some (PDict a) →
  a !! "class" = Some attention_class →
  a !! "params" = Some (PDict params) →
  get_instance attention_class (with_entries params)
    ["txtgen.custom"; "tensorflow.contrib.seq2seq"] = Ok mechanism →
  (∀ wrapper_params, a !! "wrapper_params" ≠ Some (PDict wrapper_params)) →
  construct (PDict h)
  = Raise (match a !! "wrapper_params" with
           | None => KeyError "wrapper_params"
           | Some _ => TypeError
           end).
Proof.
  intros Hbase Hh Hclass Hparams Hmech Hwrapper.
  rewrite (init_upto_get_instance h a attention_class params self0) by done.
  unfold AttentionRNNDecoder.attention_modules. rewrite Hmech.
  unfold_bind.
  destruct (a !! "wrapper_params") as [[| | | |wp|]|] eqn:Hw;
    try reflexivity.
  by destruct (Hwrapper wp).
Qed.


End ConstructorBehaviour.

(** ** Further properties of the methods and of the output tuples *)

Lemma is_field_true fields k : is_field fields k = true ↔ k ∈ fields.
Proof.
  unfold is_field. rewrite existsb_exists. split.
  - intros (x & Hin & Heq). apply String.eqb_eq in Heq as ->.
    by apply list_elem_of_In.
  - intros Hin. exists k. split; [by apply list_elem_of_In|].
    apply String.eqb_refl.
Qed.

Section MethodBehaviour.
Context `{Host}.
Implicit Types self : Decoder Obj Cell Helper.
Implicit Types time inputs state : Obj.

(** X10: when the helper's [initialize()] returns fewer than two items, the
    attention decoder's [initialize] raises [IndexError], while the basic
    decoder's returns a tuple that is too short for the decode loop: the
    helper's items followed by the initial state. *)
Theorem initialize_short_helper self name :
  (List.length (helper_initialize (_helper self)) < 2)%nat →
  AttentionRNNDecoder.initialize self name = Raise IndexError
  ∧ seq_items (BasicRNNDecoder.initialize self name)
    = (helper_initialize (_helper self) ++ [_initial_state self])%list
  ∧ (List.length (seq_items (BasicRNNDecoder.initialize self name)) < 3)%nat.
Proof.
  intros Hlen.
  unfold AttentionRNNDecoder.initialize, BasicRNNDecoder.initialize.
  destruct (helper_initialize (_helper self)) as [|h0 [|h1 rest]];
    simpl in *; repeat split; lia.
Qed.

(** X11: the two [initialize] methods return the same items exactly when the
    helper's [initialize()] returns two items: with fewer the attention
    decoder raises, with more it drops the extra items that the basic
    decoder keeps. *)
Theorem initialize_agree_iff self name :
  (∃ s, AttentionRNNDecoder.initialize self name = Ok s
        ∧ seq_items s = seq_items (BasicRNNDecoder.initialize self name))
  ↔ List.length (helper_initialize (_helper self)) = 2%nat.
Proof.
  unfold AttentionRNNDecoder.initialize, BasicRNNDecoder.initialize.
  destruct (helper_initialize (_helper self)) as [|h0 [|h1 [|h2 rest]]];
    simpl; split.
  - intros (s & [=] & _).
  - discriminate.
  - intros (s & [=] & _).
  - discriminate.
  - done.
  - intros _. by eexists.
  - intros (s & [= <-] & Hitems). simpl in Hitems.
    injection Hitems as _ Hrest. by destruct rest.
  - discriminate.
Qed.

(** X12: if the helper's [next_inputs] hands back the state it is given (as
    the comment in [BasicRNNDecoder.step] expects), the next state returned
    by [step] is the state the cell returned: the cell state for the basic
    decoder, the whole wrapper state of the second invocation for the
    attention decoder. *)
Theorem step_next_state_is_cell_state self time inputs state name env :
  (∀ t o s ids, (helper_next_inputs (_helper self) t o s ids).2 = s) →
  let first := cell_call (_cell self) inputs state env in
  let second := cell_call (_cell self) inputs state first.2 in
  (BasicRNNDecoder.step self time inputs state name env).1.1.1.2
  = first.1.2
  ∧ (AttentionRNNDecoder.step self time inputs state name env).1.1.1.2
    = second.1.2.
Proof.
  intros Hpass first second. subst first second.
  unfold BasicRNNDecoder.step, AttentionRNNDecoder.step.
  destruct (cell_call (_cell self) inputs state env) as [[co cs] e1].
  simpl.
  destruct (cell_call (_cell self) inputs state e1) as [[wo ws] e2].
  simpl. split.
  - specialize (Hpass time (fully_connected co (_vocab_size self)) cs
                  (helper_sample (_helper self) time
                     (fully_connected co (_vocab_size self)) cs)).
    by destruct (helper_next_inputs _ _ _ _ _) as [[f ni] ns].
  - specialize (Hpass time (fully_connected co (_vocab_size self)) ws
                  (helper_sample (_helper self) time
                     (fully_connected co (_vocab_size self))
                     (get_cell_state ws))).
    by destruct (helper_next_inputs _ _ _ _ _) as [[f ni] ns].
Qed.

(** X13: the default hyperparameters of the attention decoder are those of
    the basic decoder with "name" and "attention" set; their keys are the
    base keys and "name", and "attention" in addition. *)
Theorem default_hparams_keys :
  AttentionRNNDecoder.default_hparams
  = <["attention" := AttentionRNNDecoder.attention_defaults]>
      (<["name" := PStr "attention_rnn_decoder"]>
         BasicRNNDecoder.default_hparams)
  ∧ dom BasicRNNDecoder.default_hparams
    = {["name"]} ∪ dom RNNDecoderBase_default_hparams
  ∧ dom AttentionRNNDecoder.default_hparams
    = {["attention"]} ∪ dom BasicRNNDecoder.default_hparams.
Proof.
  unfold AttentionRNNDecoder.default_hparams, BasicRNNDecoder.default_hparams.
  cbv zeta. repeat split.
  - by rewrite insert_insert_eq.
  - by rewrite dom_insert_L.
  - rewrite !dom_insert_L. set_solver.
Qed.

End MethodBehaviour.

Section OutputTuples.
Context {A : Type}.
Implicit Types kwargs : list (string * A).

(** X14: a keyword call of [AttentionRNNDecoderOutput] with a keyword that is
    not one of its five field names raises [TypeError], whatever the other
    keywords are. *)
Theorem attention_output_unexpected_keyword kwargs k v :
  (k, v) ∈ kwargs →
  k ∉ AttentionRNNDecoderOutput._fields →
  AttentionRNNDecoderOutput.of_kwargs kwargs = Raise TypeError.
Proof.
  intros Hin Hk. unfold AttentionRNNDecoderOutput.of_kwargs.
  rewrite (namedtuple_new_unexpected _ kwargs k v Hin); [reflexivity|].
  destruct (is_field AttentionRNNDecoderOutput._fields k) eqn:Hf; [|done].
  by apply is_field_true in Hf.
Qed.

(** X15: when a keyword call of [AttentionRNNDecoderOutput] returns, every
    keyword is a field name and each field holds the value passed under its
    name, in whatever order the keywords are written. *)
Theorem attention_output_keywords_bound kwargs r :
  AttentionRNNDecoderOutput.of_kwargs kwargs = Ok r →
  Forall (λ kv, kv.1 ∈ AttentionRNNDecoderOutput._fields) kwargs
  ∧ kwarg_lookup "rnn_output" kwargs
    = Some (AttentionRNNDecoderOutput.rnn_output r)
  ∧ kwarg_lookup "sample_id" kwargs
    = Some (AttentionRNNDecoderOutput.sample_id r)
  ∧ kwarg_lookup "cell_output" kwargs
    = Some (AttentionRNNDecoderOutput.cell_output r)
  ∧ kwarg_lookup "attention_scores" kwargs
    = Some (AttentionRNNDecoderOutput.attention_scores r)
  ∧ kwarg_lookup "attention_context" kwargs
    = Some (AttentionRNNDecoderOutput.attention_context r).
Proof.
  unfold AttentionRNNDecoderOutput.of_kwargs, namedtuple_new.
  destruct (forallb _ kwargs) eqn:Hall; [|discriminate].
  intros Hr. split.
  - apply Forall_forall. intros kv Hkv.
    rewrite forallb_forall in Hall.
    apply is_field_true, Hall. by apply list_elem_of_In.
  - simpl in Hr. unfold_bind.
    destruct (kwarg_lookup "rnn_output" kwargs); [|discriminate].
    destruct (kwarg_lookup "sample_id" kwargs); [|discriminate].
    destruct (kwarg_lookup "cell_output" kwargs); [|discriminate].
    destruct (kwarg_lookup "attention_scores" kwargs); [|discriminate].
    destruct (kwarg_lookup "attention_context" kwargs); [|discriminate].
    by injection Hr as <-.
Qed.

End OutputTuples.

(** ** The further properties at concrete inputs *)

Lemma init_succeeds_with_required_keys_witness :
  ∃ r,
    Toy.construct (PInt 64)
      (PDict (Toy.tree (Toy.entries
         [("class", PStr "LuongAttention");
          ("params", Toy.entries [("scale", PBool true)]);
          ("wrapper_params", Toy.entries [])]))) = Ok r.
Proof.
  eexists. unfold Toy.construct, Toy.entries.
  eapply (init_succeeds_with_required_keys (H := Toy.host));
    vm_compute; reflexivity.
Defined.


Lemma init_again_keeps_hparams_witness :
  ∃ r1 r2,
    Toy.construct (PInt 64) Toy.hparams = Ok r1
    ∧ Toy.construct (PInt 64) r1.2 = Ok r2
    ∧ r2.2 = r1.2.
Proof.
  eexists (_, _), (_, _).
  split; [vm_compute; reflexivity|]. split; [vm_compute; reflexivity|].
  simpl.
  eapply (init_again_keeps_hparams (H := Toy.host)
            (PInt 64) (PObj 1%Z) (PObj 2%Z) (PObj 3%Z) PNone PNone
            None PNone (PInt 100) Toy.hparams);
    vm_compute; reflexivity.
Defined.

Lemma init_missing_attention_witness :
  Toy.construct (PInt 64) (PDict (<["use_embedding" := PBool true]> ∅))
  = Raise (KeyError "attention").
Proof.
  unfold Toy.construct.
  apply (init_missing_attention (H := Toy.host)
           (PInt 64) (PObj 1%Z) (PObj 2%Z) (PObj 3%Z) PNone PNone
           None PNone (PInt 100) (<["use_embedding" := PBool true]> ∅)
           (mkDecoder 7%Z tt 0%Z (PInt 100)));
    reflexivity.
Defined.

Lemma init_missing_class_witness :
  Toy.construct (PInt 64)
    (PDict (Toy.tree (Toy.entries
       [("type", PStr "LuongAttention");
        ("kwargs", Toy.entries [("num_units", PInt 512)])])))
  = Raise (KeyError "class").
Proof.
  unfold Toy.construct, Toy.entries.
  apply (init_missing_class (H := Toy.host)
           (PInt 64) (PObj 1%Z) (PObj 2%Z) (PObj 3%Z) PNone PNone
           None PNone (PInt 100) _
           (list_to_map
              [("type", PStr "LuongAttention");
               ("kwargs", PDict (list_to_map [("num_units", PInt 512)]))])
           (mkDecoder 7%Z tt 0%Z (PInt 100)));
    reflexivity.
Defined.

Lemma init_params_must_be_dict_witness :
  Toy.construct (PInt 64)
    (PDict (Toy.tree (Toy.entries
       [("class", PStr "LuongAttention");
        ("params", PNone);
        ("wrapper_params", Toy.entries [])])))
  = Raise TypeError.
Proof.
  unfold Toy.construct, Toy.entries.
  rewrite (init_params_must_be_dict (H := Toy.host)
             (PInt 64) (PObj 1%Z) (PObj 2%Z) (PObj 3%Z) PNone PNone
             None PNone (PInt 100) _
             (list_to_map
                [("class", PStr "LuongAttention");
                 ("params", PNone);
                 ("wrapper_params", PDict (list_to_map []))])
             (PStr "LuongAttention")
             (mkDecoder 7%Z tt 0%Z (PInt 100)));
    [reflexivity..|].
  intros params Hparams. vm_compute in Hparams. discriminate.
Defined.

Lemma init_get_instance_error_first_witness :
  Toy.construct (PStr "many")
    (PDict (Toy.tree (Toy.entries
       [("class", PStr "LuongAttention");
        ("params", Toy.entries [])])))
  = Raise (HostError "get_instance").
Proof.
  unfold Toy.construct, Toy.entries.
  apply (init_get_instance_error_first (H := Toy.host)
           (PStr "many") (PObj 1%Z) (PObj 2%Z) (PObj 3%Z) PNone PNone
           None PNone (PInt 100) _
           (list_to_map
              [("class", PStr "LuongAttention");
               ("params", PDict (list_to_map []))])
           (PStr "LuongAttention") ∅
           (mkDecoder 7%Z tt 0%Z (PInt 100)));
    reflexivity.
Defined.

Lemma init_wrapper_params_must_be_dict_witness :
  Toy.construct (PInt 64)
    (PDict (Toy.tree (Toy.entries
       [("class", PStr "LuongAttention");
        ("params", Toy.entries [])])))
  = Raise (KeyError "wrapper_params").
Proof.
  unfold Toy.construct, Toy.entries.
  rewrite (init_wrapper_params_must_be_dict (H := Toy.host)
             (PInt 64) (PObj 1%Z) (PObj 2%Z) (PObj 3%Z) PNone PNone
             None PNone (PInt 100) _
             (list_to_map
                [("class", PStr "LuongAttention");
                 ("params", PDict (list_to_map []))])
             (PStr "LuongAttention") ∅
             (mkDecoder 7%Z tt 0%Z (PInt 100)) 64%Z);
    [reflexivity..|].
  intros wp Hwp. vm_compute in Hwp. discriminate.
Defined.


Lemma initialize_short_helper_witness :
  (List.length
     (helper_initialize (Host := Toy.short_host) (_helper Toy.decoder)) < 2)%nat
  ∧ AttentionRNNDecoder.initialize (H := Toy.short_host) Toy.decoder None
    = Raise IndexError.
Proof.
  split; [simpl; lia|].
  apply (initialize_short_helper (H := Toy.short_host) Toy.decoder None).
  simpl. lia.
Defined.

Lemma initialize_agree_iff_witness :
  ∃ s,
    AttentionRNNDecoder.initialize (H := Toy.host) Toy.decoder None = Ok s
    ∧ seq_items s
      = seq_items (BasicRNNDecoder.initialize (H := Toy.host) Toy.decoder None).
Proof.
  apply (initialize_agree_iff (H := Toy.host) Toy.decoder None).
  reflexivity.
Defined.

Lemma step_next_state_is_cell_state_witness :
  (∀ t o s ids,
     (helper_next_inputs (Host := Toy.host) (_helper Toy.decoder) t o s ids).2
     = s)
  ∧ (BasicRNNDecoder.step (H := Toy.host)
       Toy.decoder 1%Z 2%Z 3%Z None 0%nat).1.1.1.2 = 4%Z
  ∧ (AttentionRNNDecoder.step (H := Toy.host)
       Toy.decoder 1%Z 2%Z 3%Z None 0%nat).1.1.1.2 = 4%Z.
Proof.
  split; [intros; reflexivity|].
  apply (step_next_state_is_cell_state (H := Toy.host)
           Toy.decoder 1%Z 2%Z 3%Z None 0%nat).
  intros; reflexivity.
Defined.

Lemma attention_output_unexpected_keyword_witness :
  AttentionRNNDecoderOutput.of_kwargs
    [("rnn_output", float32); ("sample_id", int32); ("cell_output", float32);
     ("attention_scores", float32); ("attention_context", float32);
     ("logits", float32)]
  = Raise TypeError.
Proof.
  apply (attention_output_unexpected_keyword _ "logits" float32).
  - rewrite !elem_of_cons. auto 10.
  - unfold AttentionRNNDecoderOutput._fields.
    rewrite !elem_of_cons, elem_of_nil. intros H.
    repeat destruct H as [H|H]; try discriminate. exact H.
Defined.

Lemma attention_output_keywords_bound_witness :
  kwarg_lookup "sample_id"
    [("attention_context", 5%Z); ("attention_scores", 4%Z);
     ("cell_output", 3%Z); ("sample_id", 2%Z); ("rnn_output", 1%Z)]
  = Some (AttentionRNNDecoderOutput.sample_id
            (AttentionRNNDecoderOutput.mk 1%Z 2%Z 3%Z 4%Z 5%Z)).
Proof.
  apply (attention_output_keywords_bound
           [("attention_context", 5%Z); ("attention_scores", 4%Z);
            ("cell_output", 3%Z); ("sample_id", 2%Z); ("rnn_output", 1%Z)]
           (AttentionRNNDecoderOutput.mk 1%Z 2%Z 3%Z 4%Z 5%Z)).
  reflexivity.
Defined.
